(** * Page-props resolution of the Sitecore JSS Next.js application

    A shallow embedding of [lib/page-props-factory.ts]: the helpers
    [extractPath] and [isServerSidePropsContext], and the method
    [SitecorePagePropsFactory.create].

    JavaScript objects used as dictionaries are finite maps with string
    keys; [undefined] and [null] in an optional position are [None]; the
    asynchronous method is a computation in a small monad that threads the
    factory's mutable [layoutService] field, records every call to an
    external service, and either returns a value or throws. *)

From stdpp Require Import base option list strings gmap fin_maps.
From Stdlib Require Import ZArith Ascii String.

Local Open Scope string_scope.

(** ** JavaScript values *)

(** JSON-like data carried through the resolver without being inspected. *)
#[local] Unset Elimination Schemes.
Inductive JsValue : Type :=
  | JUndefined
  | JNull
  | JBool (b : bool)
  | JNum (n : Z)
  | JStr (s : string)
  | JArr (items : list JsValue)
  | JObj (fields : list (string * JsValue)).
#[local] Set Elimination Schemes.

(** [Array.prototype.join] on an array of strings. *)
Fixpoint join (sep : string) (parts : list string) : string :=
  match parts with
  | [] => ""
  | [s] => s
  | s :: rest => s ++ sep ++ join sep rest
  end.

(** [String.prototype.startsWith]. *)
Fixpoint startsWith (s pre : string) {struct pre} : bool :=
  match pre with
  | EmptyString => true
  | String a pre' =>
      match s with
      | EmptyString => false
      | String b s' => Ascii.eqb a b && startsWith s' pre'
      end
  end.

#[local] Arguments Ascii.eqb : simpl never.

(** ** Route parameters and [extractPath] *)

(** A value of [ParsedUrlQuery]: [string | string[]]; an [undefined] entry
    is an absent key. *)
Inductive QueryValue : Type :=
  | QString (s : string)
  | QArray (segments : list string).

Abbreviation ParsedUrlQuery := (gmap string QueryValue).

(** [function extractPath(params: ParsedUrlQuery | undefined): string] *)
Definition extractPath (params : option ParsedUrlQuery) : string :=
  match params with
  | None => "/"
  | Some params =>
      let path :=
        match params !! "path" with
        | Some (QArray segments) => join "/" segments
        | Some (QString s) => s
        | None => "/"
        end in
      if negb (startsWith path "/") then "/" ++ path else path
  end.

(** The string the path parameter stands for before the leading slash is
    ensured: an array is joined, a string is taken as it is. *)
Definition pathParameter (v : QueryValue) : string :=
  match v with
  | QArray segments => join "/" segments
  | QString s => s
  end.

(** Whether a string contains two consecutive slashes. *)
Fixpoint hasDuplicateSlash (s : string) : bool :=
  match s with
  | EmptyString => false
  | String c rest =>
      (Ascii.eqb "/"%char c && startsWith rest "/") || hasDuplicateSlash rest
  end.

(** ** Data model *)

(** Request and response handles of a request-time context. The resolver
    only passes them on. *)
Record IncomingMessage : Type := { url : string; headers : gmap string string }.
Record ServerResponse : Type := { statusCode : Z }.

(** The session object of [getSession]. *)
Record Session : Type := { user : JsValue; expires : string }.

(** [RouteData]: [itemId] is optional. *)
Record RouteData : Type :=
  { name : string; itemId : option string; placeholders : JsValue }.

(** [LayoutServiceData]: [{ sitecore: { context, route } }], where [route]
    may be [null]. The field [context] is [layoutContext] here, apart from
    the render context that [create] receives. *)
Record SitecoreData : Type :=
  { layoutContext : gmap string JsValue; route : option RouteData }.
Record LayoutServiceData : Type := { sitecore : SitecoreData }.

Abbreviation DictionaryPhrases := (gmap string string).
Abbreviation ComponentPropsCollection := (gmap string JsValue).

(** [EditingData]. The local [layoutData] it is assigned to is
    [LayoutServiceData | null] and is only read through [?.]. *)
Record EditingData : Type :=
  { ed_path : string;
    ed_language : string;
    ed_layoutData : option LayoutServiceData;
    ed_dictionary : DictionaryPhrases }.

(** [GetServerSidePropsContext | GetStaticPropsContext]: the build-time
    variant has no [req] and no [res]. *)
Record PropsContext : Type :=
  { req : option IncomingMessage;
    res : option ServerResponse;
    params : option ParsedUrlQuery;
    preview : option bool;
    previewData : JsValue;
    ctx_locale : option string }.

(** A value stored in the [sitecoreContext] object. *)
Inductive ContextValue : Type :=
  | VRoute (r : RouteData)
  | VJson (v : JsValue).

Abbreviation SitecoreContextValue := (gmap string ContextValue).

(** [SitecorePageProps], the result of [create]. *)
Record SitecorePageProps : Type :=
  { locale : string;
    dictionary : DictionaryPhrases;
    sitecoreContext : option SitecoreContextValue;
    componentProps : ComponentPropsCollection;
    notFound : bool;
    unauthorized : bool }.

(** ** Errors *)

(** [error.response], with its possibly missing [status]. *)
Record HttpResponse : Type := { status : option Z }.

(** What a promise rejects with or a [throw] raises. *)
Inductive JsError : Type :=
  | EditingDataError (data : JsValue)
      (* new Error(`Unable to get editing data for preview ${JSON.stringify(data)}`) *)
  | ServiceError (message : string) (response : option HttpResponse).

(** [error.response?.status] *)
Definition responseStatus (error : JsError) : option Z :=
  match error with
  | EditingDataError _ => None
  | ServiceError _ response => response ≫= status
  end.

(** [error.response?.status === code] *)
Definition statusIs (error : JsError) (code : Z) : bool :=
  match responseStatus error with
  | Some s => Z.eqb s code
  | None => false
  end.

(** A settled promise. *)
Inductive Outcome (A : Type) : Type :=
  | Returned (a : A)
  | Thrown (error : JsError).
Arguments Returned {A} a.
Arguments Thrown {A} error.

(** ** Collaborators *)

(** Modelled from the spec: the layout service built by
    [layoutServiceFactory.create] of [lib/layout-service-factory], which is
    "reconfigurable with a session for authorized fetches"; a layout service
    is identified by the session it was created with, if any. *)
Record LayoutService : Type := { authorizedBy : option Session }.

Definition layoutServiceFactory_create (session : option Session) : LayoutService :=
  {| authorizedBy := session |}.

(** The external services and the project configuration. Each service is
    called at most once in a resolution, so its answer is a function of the
    arguments of the call. The component-props services close over the
    constant [componentModule]. *)
Record Environment : Type :=
  { pkg_config_language : string;
    getSession : PropsContext → Outcome (option Session);
    getEditingData : JsValue → Outcome (option EditingData);
    fetchLayoutData :
      LayoutService → string → string →
      option IncomingMessage → option ServerResponse → Outcome LayoutServiceData;
    fetchDictionaryData : string → Outcome DictionaryPhrases;
    fetchServerSideComponentProps :
      LayoutServiceData → PropsContext → Outcome ComponentPropsCollection;
    fetchStaticComponentProps :
      LayoutServiceData → PropsContext → Outcome ComponentPropsCollection }.

(** The observable actions of a resolution, in the order they happen. *)
Inductive Event : Type :=
  | EvGetSession (context : PropsContext)
  | EvGetEditingData (data : JsValue)
  | EvFetchLayoutData (service : LayoutService) (path locale : string)
      (req : option IncomingMessage) (res : option ServerResponse)
  | EvConsoleLog (error : JsError)
  | EvFetchDictionaryData (locale : string)
  | EvFetchServerSideComponentProps (layoutData : LayoutServiceData) (context : PropsContext)
  | EvFetchStaticComponentProps (layoutData : LayoutServiceData) (context : PropsContext).

Definition isComponentPropsFetch (ev : Event) : bool :=
  match ev with
  | EvFetchServerSideComponentProps _ _ | EvFetchStaticComponentProps _ _ => true
  | _ => false
  end.

Definition isDictionaryFetch (ev : Event) : bool :=
  match ev with EvFetchDictionaryData _ => true | _ => false end.

Definition isLayoutFetch (ev : Event) : bool :=
  match ev with EvFetchLayoutData _ _ _ _ _ => true | _ => false end.

(** The mutable fields of a [SitecorePagePropsFactory] instance. *)
Record Factory : Type := { layoutService : LayoutService }.

(** ** The resolution monad *)

(** A computation reads and writes the factory's fields, emits events, and
    returns or throws. *)
Definition Async (A : Type) : Type := Factory → Outcome A * Factory * list Event.

Definition ret {A} (a : A) : Async A := λ this, (Returned a, this, []).

Definition throw {A} (error : JsError) : Async A := λ this, (Thrown error, this, []).

Definition bind {A B} (m : Async A) (k : A → Async B) : Async B :=
  λ this,
    match m this with
    | (Returned a, this', evs) =>
        let '(out, this'', evs') := k a this' in (out, this'', (evs ++ evs')%list)
    | (Thrown error, this', evs) => (Thrown error, this', evs)
    end.

(** [promise.catch(handler)] *)
Definition catch {A} (m : Async A) (handler : JsError → Async A) : Async A :=
  λ this,
    match m this with
    | (Returned a, this', evs) => (Returned a, this', evs)
    | (Thrown error, this', evs) =>
        let '(out, this'', evs') := handler error this' in (out, this'', (evs ++ evs')%list)
    end.

(** [await] of a call to an external service. *)
Definition await {A} (ev : Event) (answer : Outcome A) : Async A :=
  λ this, (answer, this, [ev]).

Definition console_log (error : JsError) : Async unit :=
  λ this, (Returned tt, this, [EvConsoleLog error]).

Definition get_layoutService : Async LayoutService :=
  λ this, (Returned (layoutService this), this, []).

Definition set_layoutService (service : LayoutService) : Async unit :=
  λ _, (Returned tt, {| layoutService := service |}, []).

#[global] Instance Async_ret : MRet Async := @ret.
#[global] Instance Async_bind : MBind Async := λ A B k m, bind m k.

(** ** [SitecorePagePropsFactory] *)

(** [isServerSidePropsContext]: [context.req !== undefined]. *)
Definition isServerSidePropsContext (context : PropsContext) : bool :=
  match req context with
  | Some _ => true
  | None => false
  end.

(** Truthiness of the optional boolean [context.preview]. *)
Definition truthy (b : option bool) : bool :=
  match b with
  | Some true => true
  | _ => false
  end.

(** [layoutData?.sitecore?.route] *)
Definition routeOf (layoutData : option LayoutServiceData) : option RouteData :=
  layoutData ≫= λ ld, route (sitecore ld).

(** A possibly [undefined] string as a value. *)
Definition optionalString (s : option string) : JsValue :=
  match s with
  | Some s => JStr s
  | None => JUndefined
  end.

(** [{ route: r, itemId: r?.itemId, ...bag }]: the two named properties are
    written first and the own properties of [bag] are copied over them. *)
Definition contextPayload (r : RouteData) (bag : gmap string JsValue) : SitecoreContextValue :=
  (VJson <$> bag) ∪
  <[ "itemId" := VJson (optionalString (itemId r)) ]> (<[ "route" := VRoute r ]> ∅).

(** [SitecorePagePropsFactory.create]. The locals [notFound] and
    [unauthorized], which the [catch] handler assigns, are returned by it
    next to the layout data. *)
Definition create (env : Environment) (context : PropsContext) : Async SitecorePageProps :=
  session ← await (EvGetSession context) (getSession env context);
  '(locale, layoutData, dictionary, notFound, unauthorized) ←
    (if truthy (preview context) then
       data ← await (EvGetEditingData (previewData context))
                    (getEditingData env (previewData context));
       match data with
       | None => throw (EditingDataError (previewData context))
       | Some data =>
           mret (ed_language data, ed_layoutData data, ed_dictionary data, false, false)
       end
     else
       let path := extractPath (params context) in
       let locale := default (pkg_config_language env) (ctx_locale context) in
       match session with
       | Some s => set_layoutService (layoutServiceFactory_create (Some s))
       | None => mret ()
       end;;
       service ← get_layoutService;
       let req' := if isServerSidePropsContext context then req context else None in
       let res' := if isServerSidePropsContext context then res context else None in
       '(layoutData, notFound, unauthorized) ←
         catch
           (ld ← await (EvFetchLayoutData service path locale req' res')
                       (fetchLayoutData env service path locale req' res');
            mret (Some ld, false, false))
           (λ error,
              console_log error;;
              if statusIs error 404 then mret (None, true, false)
              else if statusIs error 401 then mret (None, false, true)
              else throw error);
       let notFound :=
         match routeOf layoutData with
         | Some _ => notFound
         | None => true
         end in
       dictionary ← await (EvFetchDictionaryData locale) (fetchDictionaryData env locale);
       mret (locale, layoutData, dictionary, notFound, unauthorized));
  '(sitecoreContext, componentProps) ←
    match layoutData with
    | Some ld =>
        match route (sitecore ld) with
        | Some r =>
            let sitecoreContext := contextPayload r (layoutContext (sitecore ld)) in
            componentProps ←
              (if isServerSidePropsContext context then
                 await (EvFetchServerSideComponentProps ld context)
                       (fetchServerSideComponentProps env ld context)
               else
                 await (EvFetchStaticComponentProps ld context)
                       (fetchStaticComponentProps env ld context));
            mret (Some sitecoreContext, componentProps)
        | None => mret (None, ∅)
        end
    | None => mret (None, ∅)
    end;
  mret {| locale := locale;
          dictionary := dictionary;
          sitecoreContext := sitecoreContext;
          componentProps := componentProps;
          notFound := notFound;
          unauthorized := unauthorized |}.

(** The layout data a resolution adopts, read off the services' answers:
    the editing data's in preview mode, the layout service's otherwise
    ([None] when there is none or the lookup failed). *)
Definition resolvedLayout (env : Environment) (context : PropsContext) (this : Factory)
    : option LayoutServiceData :=
  match getSession env context with
  | Thrown _ => None
  | Returned session =>
      if truthy (preview context) then
        match getEditingData env (previewData context) with
        | Returned (Some data) => ed_layoutData data
        | _ => None
        end
      else
        let service :=
          match session with
          | Some s => layoutServiceFactory_create (Some s)
          | None => layoutService this
          end in
        match
          fetchLayoutData env service (extractPath (params context))
            (default (pkg_config_language env) (ctx_locale context))
            (if isServerSidePropsContext context then req context else None)
            (if isServerSidePropsContext context then res context else None)
        with
        | Returned ld => Some ld
        | Thrown _ => None
        end
  end.

(** ** A sample site *)

Definition homeRoute : RouteData :=
  {| name := "home"; itemId := Some "home-id"; placeholders := JObj [] |}.

Definition homeLayout : LayoutServiceData :=
  {| sitecore :=
       {| layoutContext := {[ "language" := JStr "en" ]}; route := Some homeRoute |} |}.

(** Layout data whose context bag has keys named [route] and [itemId]. *)
Definition shadowingLayout : LayoutServiceData :=
  {| sitecore :=
       {| layoutContext := <[ "itemId" := JStr "bag-id" ]> {[ "route" := JNull ]};
          route := Some homeRoute |} |}.

Definition routelessLayout : LayoutServiceData :=
  {| sitecore := {| layoutContext := {[ "language" := JStr "en" ]}; route := None |} |}.

Definition httpError (code : Z) : JsError :=
  ServiceError "Request failed" (Some {| status := Some code |}).

Definition networkError : JsError := ServiceError "socket hang up" None.

Definition sampleDictionary : DictionaryPhrases := {[ "greeting" := "Hello" ]}.

Definition sampleEditingData : EditingData :=
  {| ed_path := "/";
     ed_language := "da";
     ed_layoutData := Some shadowingLayout;
     ed_dictionary := {[ "greeting" := "Hej" ]} |}.

Definition sampleEnvironment : Environment :=
  {| pkg_config_language := "en";
     getSession := λ _, Returned None;
     getEditingData := λ data,
       match data with
       | JStr _ => Returned (Some sampleEditingData)
       | _ => Returned None
       end;
     fetchLayoutData := λ _ path _ _ _,
       if String.eqb path "/missing" then Thrown (httpError 404)
       else if String.eqb path "/private" then Thrown (httpError 401)
       else if String.eqb path "/broken" then Thrown networkError
       else if String.eqb path "/empty" then Returned routelessLayout
       else Returned homeLayout;
     fetchDictionaryData := λ _, Returned sampleDictionary;
     fetchServerSideComponentProps := λ _ _, Returned {[ "uid-1" := JStr "ssr" ]};
     fetchStaticComponentProps := λ _ _, Returned {[ "uid-1" := JStr "ssg" ]} |}.

Definition sampleFactory : Factory :=
  {| layoutService := layoutServiceFactory_create None |}.

(** A build-time context for the page at [segments]. *)
Definition staticContext (segments : list string) : PropsContext :=
  {| req := None;
     res := None;
     params := Some {[ "path" := QArray segments ]};
     preview := None;
     previewData := JUndefined;
     ctx_locale := None |}.

(** A request-time context for the page at [segments]. *)
Definition requestContext (segments : list string) : PropsContext :=
  {| req := Some {| url := "/" +:+ join "/" segments; headers := ∅ |};
     res := Some {| statusCode := 200 |};
     params := Some {[ "path" := QArray segments ]};
     preview := None;
     previewData := JUndefined;
     ctx_locale := Some "en" |}.

(** A preview context carrying the preview payload [data]. *)
Definition previewContext (data : JsValue) : PropsContext :=
  {| req := None;
     res := None;
     params := None;
     preview := Some true;
     previewData := data;
     ctx_locale := None |}.

(** What the sample site is expected to answer. *)

Definition flaggedProps (notFound unauthorized : bool) : SitecorePageProps :=
  {| locale := "en";
     dictionary := sampleDictionary;
     sitecoreContext := None;
     componentProps := ∅;
     notFound := notFound;
     unauthorized := unauthorized |}.

Definition homeProps (componentProps : ComponentPropsCollection) : SitecorePageProps :=
  {| locale := "en";
     dictionary := sampleDictionary;
     sitecoreContext :=
       Some (<[ "language" := VJson (JStr "en") ]>
               (<[ "itemId" := VJson (JStr "home-id") ]> {[ "route" := VRoute homeRoute ]}));
     componentProps := componentProps;
     notFound := false;
     unauthorized := false |}.

Definition previewProps : SitecorePageProps :=
  {| locale := "da";
     dictionary := {[ "greeting" := "Hej" ]};
     sitecoreContext :=
       Some (<[ "itemId" := VJson (JStr "bag-id") ]> {[ "route" := VJson JNull ]});
     componentProps := {[ "uid-1" := JStr "ssg" ]};
     notFound := false;
     unauthorized := false |}.

(** A member area: the session lookup finds a session for request-time
    contexts and none at build time; the other services are the sample
    site's. *)
Definition memberSession : Session :=
  {| user := JObj [("name", JStr "alice")]; expires := "2030-01-01" |}.

Definition memberEnvironment : Environment :=
  {| pkg_config_language := pkg_config_language sampleEnvironment;
     getSession := λ context,
       Returned (if isServerSidePropsContext context then Some memberSession else None);
     getEditingData := getEditingData sampleEnvironment;
     fetchLayoutData := fetchLayoutData sampleEnvironment;
     fetchDictionaryData := fetchDictionaryData sampleEnvironment;
     fetchServerSideComponentProps := fetchServerSideComponentProps sampleEnvironment;
     fetchStaticComponentProps := fetchStaticComponentProps sampleEnvironment |}.

(** The sample site with one service out of order. *)
Definition brokenSessionEnvironment : Environment :=
  {| pkg_config_language := pkg_config_language sampleEnvironment;
     getSession := λ _, Thrown networkError;
     getEditingData := getEditingData sampleEnvironment;
     fetchLayoutData := fetchLayoutData sampleEnvironment;
     fetchDictionaryData := fetchDictionaryData sampleEnvironment;
     fetchServerSideComponentProps := fetchServerSideComponentProps sampleEnvironment;
     fetchStaticComponentProps := fetchStaticComponentProps sampleEnvironment |}.

Definition brokenDictionaryEnvironment : Environment :=
  {| pkg_config_language := pkg_config_language sampleEnvironment;
     getSession := getSession sampleEnvironment;
     getEditingData := getEditingData sampleEnvironment;
     fetchLayoutData := fetchLayoutData sampleEnvironment;
     fetchDictionaryData := λ _, Thrown networkError;
     fetchServerSideComponentProps := fetchServerSideComponentProps sampleEnvironment;
     fetchStaticComponentProps := fetchStaticComponentProps sampleEnvironment |}.

Definition brokenComponentsEnvironment : Environment :=
  {| pkg_config_language := pkg_config_language sampleEnvironment;
     getSession := getSession sampleEnvironment;
     getEditingData := getEditingData sampleEnvironment;
     fetchLayoutData := fetchLayoutData sampleEnvironment;
     fetchDictionaryData := fetchDictionaryData sampleEnvironment;
     fetchServerSideComponentProps := λ _ _, Thrown networkError;
     fetchStaticComponentProps := λ _ _, Thrown networkError |}.

(** The sample site while an editor previews an item that has no route. *)
Definition draftEditingData : EditingData :=
  {| ed_path := "/draft";
     ed_language := "da";
     ed_layoutData := Some routelessLayout;
     ed_dictionary := {[ "greeting" := "Hej" ]} |}.

Definition draftEnvironment : Environment :=
  {| pkg_config_language := pkg_config_language sampleEnvironment;
     getSession := getSession sampleEnvironment;
     getEditingData := λ _, Returned (Some draftEditingData);
     fetchLayoutData := fetchLayoutData sampleEnvironment;
     fetchDictionaryData := fetchDictionaryData sampleEnvironment;
     fetchServerSideComponentProps := fetchServerSideComponentProps sampleEnvironment;
     fetchStaticComponentProps := fetchStaticComponentProps sampleEnvironment |}.

Definition draftProps : SitecorePageProps :=
  {| locale := "da";
     dictionary := {[ "greeting" := "Hej" ]};
     sitecoreContext := None;
     componentProps := ∅;
     notFound := false;
     unauthorized := false |}.

(** ** Path segments *)

(** A string without a slash. *)
Fixpoint slashFree (s : string) : bool :=
  match s with
  | EmptyString => true
  | String c rest => negb (Ascii.eqb "/"%char c) && slashFree rest
  end.

(** A path segment as a router produces it: not empty, no slash inside. *)
Definition isSegment (s : string) : bool :=
  negb (String.eqb s "") && slashFree s.

(** ** The page route [src/pages/[[...path]].tsx] *)

(** [new SitecorePagePropsFactory()]: the layout service is created without
    a session. *)
Definition SitecorePagePropsFactory_new : Factory :=
  {| layoutService := layoutServiceFactory_create None |}.

(** Truthiness of a JavaScript value. *)
Definition jsTruthy (v : JsValue) : bool :=
  match v with
  | JUndefined | JNull => false
  | JBool b => b
  | JNum n => negb (Z.eqb n 0)
  | JStr s => negb (String.eqb s "")
  | JArr _ | JObj _ => true
  end.

Definition contextValueTruthy (v : ContextValue) : bool :=
  match v with
  | VRoute _ => true
  | VJson v => jsTruthy v
  end.

(** [sitecoreContext?.route] as a condition. *)
Definition hasRoute (sitecoreContext : option SitecoreContextValue) : bool :=
  match sitecoreContext ≫= λ sc, sc !! "route" with
  | Some v => contextValueTruthy v
  | None => false
  end.

(** What [SitecorePage] renders: the unauthorized view, the not-found view,
    or the layout inside [ComponentPropsContext] and [SitecoreContext]. *)
Inductive Element : Type :=
  | UnauthorizedElement
  | NotFoundElement
  | LayoutElement (value : ComponentPropsCollection)
      (context : option SitecoreContextValue).

(** The component [SitecorePage]. Its [useEffect] runs after every render
    alike and is left out of the rendered element. *)
Definition SitecorePage (props : SitecorePageProps) : Element :=
  if unauthorized props then UnauthorizedElement
  else if notFound props || negb (hasRoute (sitecoreContext props)) then NotFoundElement
  else LayoutElement (componentProps props) (sitecoreContext props).

(** The result of [getServerSideProps]: [{ props, ...notFound }], where the
    key [notFound] may be absent. *)
Record ServerSidePropsResult : Type :=
  { result_props : SitecorePageProps;
    result_notFound : option bool }.

(** [getServerSideProps], which resolves the props on the module's
    factory. *)
Definition getServerSideProps (env : Environment) (context : PropsContext)
    : Async ServerSidePropsResult :=
  props ← create env context;
  let notFound := if notFound props then Some true else None in
  mret {| result_props := props; result_notFound := notFound |}.

(** ** More kinds of events *)

Definition isSessionLookup (ev : Event) : bool :=
  match ev with EvGetSession _ => true | _ => false end.

Definition isEditingDataLookup (ev : Event) : bool :=
  match ev with EvGetEditingData _ => true | _ => false end.

Definition isConsoleLog (ev : Event) : bool :=
  match ev with EvConsoleLog _ => true | _ => false end.

(** ** Proof automation *)

(** Unfolds the monad of [create] down to the answers of the services. *)
Ltac run :=
  unfold mbind, Async_bind, bind, catch, await, throw, console_log,
    get_layoutService, set_layoutService, mret, Async_ret, ret;
  cbn -[extractPath default isServerSidePropsContext statusIs contextPayload].

(** Case analysis on the answers a resolution meets, one service at a time. *)
Ltac answer :=
  match goal with
  | |- context [match ?x with _ => _ end] =>
      lazymatch x with
      | getSession _ _ => idtac
      | getEditingData _ _ => idtac
      | fetchLayoutData _ _ _ _ _ _ => idtac
      | fetchDictionaryData _ _ => idtac
      | fetchServerSideComponentProps _ _ _ => idtac
      | fetchStaticComponentProps _ _ _ => idtac
      | truthy _ => idtac
      | statusIs _ _ => idtac
      | isServerSidePropsContext _ => idtac
      | route _ => idtac
      | ed_layoutData _ => idtac
      | _ => is_var x
      end;
      destruct x eqn:?; run
  end.

Ltac answers := unfold create; run; repeat answer.

(** Splits a membership in an explicit list of events into its cases and
    drops the impossible ones. *)
Ltac event_cases H :=
  repeat (apply elem_of_cons in H as [H | H]);
  try (by apply elem_of_nil in H);
  try discriminate H.

(** ** Facts about [extractPath] *)

Lemma startsWith_cons (a b : ascii) (pre s : string) :
  startsWith (String b s) (String a pre) = Ascii.eqb a b && startsWith s pre.
Proof. reflexivity. Qed.

Lemma extractPath_some (params : ParsedUrlQuery) (v : QueryValue) :
  params !! "path" = Some v →
  extractPath (Some params) =
    if startsWith (pathParameter v) "/" then pathParameter v
    else "/" ++ pathParameter v.
Proof.
  intros Hv. unfold extractPath. rewrite Hv.
  destruct v as [s | segments]; cbn [pathParameter].
  - by destruct (startsWith s "/").
  - by destruct (startsWith (join "/" segments) "/").
Qed.

Lemma hasDuplicateSlash_prepend (p : string) :
  startsWith p "/" = false →
  hasDuplicateSlash ("/" ++ p) = hasDuplicateSlash p.
Proof.
  intros Hp. change ("/" ++ p) with (String "/" p).
  cbn [hasDuplicateSlash]. by rewrite Hp, andb_false_r.
Qed.

Example extractPath_ab :
  extractPath (Some {[ "path" := QArray ["a"; "b"] ]}) = "/a/b".
Proof. reflexivity. Qed.

Example extractPath_empty_array :
  extractPath (Some {[ "path" := QArray [] ]}) = "/".
Proof. reflexivity. Qed.

Example extractPath_rooted_string :
  extractPath (Some {[ "path" := QString "/x/y" ]}) = "/x/y".
Proof. reflexivity. Qed.

(** C3 (as amended). Without route parameters the path is [/]; the segments
    [a], [b] give [/a/b]; a path parameter that lacks a leading slash is
    prefixed with exactly one slash and is otherwise unchanged, so the
    result has a doubled slash exactly when the parameter has one. *)
Theorem extractPath_leading_slash :
  extractPath None = "/" ∧
  (∀ params : ParsedUrlQuery,
     params !! "path" = Some (QArray ["a"; "b"]) →
     extractPath (Some params) = "/a/b") ∧
  (∀ (params : ParsedUrlQuery) (v : QueryValue),
     params !! "path" = Some v →
     startsWith (pathParameter v) "/" = false →
     extractPath (Some params) = "/" ++ pathParameter v ∧
     startsWith (extractPath (Some params)) "//" = false ∧
     hasDuplicateSlash (extractPath (Some params)) = hasDuplicateSlash (pathParameter v)).
Proof.
  split; [reflexivity | split].
  - intros params Hv. by rewrite (extractPath_some _ _ Hv).
  - intros params v Hv Hp. rewrite (extractPath_some _ _ Hv), Hp.
    split; [reflexivity | split].
    + change ("/" ++ pathParameter v) with (String "/" (pathParameter v)).
      change "//" with (String "/" "/"). by rewrite startsWith_cons, Hp.
    + by apply hasDuplicateSlash_prepend.
Qed.

Lemma extractPath_leading_slash_witness :
  ({[ "path" := QString "docs/intro" ]} : ParsedUrlQuery) !! "path"
    = Some (QString "docs/intro") ∧
  startsWith (pathParameter (QString "docs/intro")) "/" = false ∧
  extractPath (Some {[ "path" := QString "docs/intro" ]}) = "/docs/intro" ∧
  hasDuplicateSlash (extractPath (Some {[ "path" := QString "docs/intro" ]})) = false.
Proof.
  split; [reflexivity | split; [reflexivity |]].
  destruct extractPath_leading_slash as (_ & _ & H).
  destruct (H {[ "path" := QString "docs/intro" ]} (QString "docs/intro")) as (H1 & _ & H3);
    [reflexivity | reflexivity |].
  split; [exact H1 | exact H3].
Defined.

(** C3 as stated fails: the parameter [a//b] lacks a leading slash and its
    resolved path [/a//b] keeps the doubled slash. *)
Lemma extractPath_duplicate_slash_counterexample :
  ¬ (∀ (params : ParsedUrlQuery) (v : QueryValue),
       params !! "path" = Some v →
       startsWith (pathParameter v) "/" = false →
       hasDuplicateSlash (extractPath (Some params)) = false).
Proof.
  intros H.
  specialize (H {[ "path" := QString "a//b" ]} (QString "a//b") eq_refl eq_refl).
  vm_compute in H. discriminate H.
Qed.

(** ** Resolutions by mode *)

Section NormalMode.
Variables (env : Environment) (context : PropsContext) (this : Factory).
Variable session : option Session.
Hypothesis Hnormal : truthy (preview context) = false.
Hypothesis Hsession : getSession env context = Returned session.

Local Abbreviation path := (extractPath (params context)).
Local Abbreviation lang := (default (pkg_config_language env) (ctx_locale context)).
Local Abbreviation service :=
  (match session with
   | Some s => layoutServiceFactory_create (Some s)
   | None => layoutService this
   end).
Local Abbreviation req' := (if isServerSidePropsContext context then req context else None).
Local Abbreviation res' := (if isServerSidePropsContext context then res context else None).

(** A layout fetch recovered into a flag: the route check that follows
    sets [notFound] whatever the flag was, and the dictionary is fetched. *)
Lemma create_layout_recovered (error : JsError) :
  fetchLayoutData env service path lang req' res' = Thrown error →
  statusIs error 404 || statusIs error 401 = true →
  create env context this =
    (match fetchDictionaryData env lang with
     | Returned phrases =>
         Returned {| locale := lang;
                     dictionary := phrases;
                     sitecoreContext := None;
                     componentProps := ∅;
                     notFound := true;
                     unauthorized := negb (statusIs error 404) |}
     | Thrown e => Thrown e
     end,
     {| layoutService := service |},
     [EvGetSession context;
      EvFetchLayoutData service path lang req' res';
      EvConsoleLog error;
      EvFetchDictionaryData lang]).
Proof.
  intros Hfetch Hstatus. unfold create. rewrite Hnormal, Hsession. run.
  destruct this as [svc0].
  destruct session as [s |]; run; cbn in Hfetch; rewrite Hfetch; run;
    destruct (statusIs error 404); cbn in Hstatus; try rewrite Hstatus; run;
    by destruct (fetchDictionaryData env lang).
Qed.

(** C2 (as amended). In normal mode a layout fetch that fails with status
    404 is recovered and the dictionary for the resolved locale is fetched
    after the failure was logged. When that fetch returns, [create] returns
    a result with [notFound = true], [unauthorized = false] and no
    [sitecoreContext]; when it rejects, [create] throws its error. *)
Theorem create_layout_404 (error : JsError) :
  fetchLayoutData env service path lang req' res' = Thrown error →
  responseStatus error = Some 404%Z →
  create env context this =
    (match fetchDictionaryData env lang with
     | Returned phrases =>
         Returned {| locale := lang;
                     dictionary := phrases;
                     sitecoreContext := None;
                     componentProps := ∅;
                     notFound := true;
                     unauthorized := false |}
     | Thrown e => Thrown e
     end,
     {| layoutService := service |},
     [EvGetSession context;
      EvFetchLayoutData service path lang req' res';
      EvConsoleLog error;
      EvFetchDictionaryData lang]).
Proof.
  intros Hfetch Hstatus.
  assert (H404 : statusIs error 404 = true) by (unfold statusIs; by rewrite Hstatus).
  rewrite (create_layout_recovered error Hfetch); by rewrite H404.
Qed.

(** A layout fetch that fails with status 401 sets [unauthorized], and the
    route check that follows sets [notFound] as well. *)
Lemma create_layout_401 (error : JsError) :
  fetchLayoutData env service path lang req' res' = Thrown error →
  responseStatus error = Some 401%Z →
  create env context this =
    (match fetchDictionaryData env lang with
     | Returned phrases =>
         Returned {| locale := lang;
                     dictionary := phrases;
                     sitecoreContext := None;
                     componentProps := ∅;
                     notFound := true;
                     unauthorized := true |}
     | Thrown e => Thrown e
     end,
     {| layoutService := service |},
     [EvGetSession context;
      EvFetchLayoutData service path lang req' res';
      EvConsoleLog error;
      EvFetchDictionaryData lang]).
Proof.
  intros Hfetch Hstatus.
  assert (H404 : statusIs error 404 = false) by (unfold statusIs; by rewrite Hstatus).
  assert (H401 : statusIs error 401 = true) by (unfold statusIs; by rewrite Hstatus).
  rewrite (create_layout_recovered error Hfetch); by rewrite H404, ?H401.
Qed.

(** C5. In normal mode a layout fetch that fails with an error whose
    status is neither 404 nor 401, or that has no status, makes [create]
    throw that very error, once it was logged; no dictionary is fetched
    and nothing is returned. *)
Theorem create_layout_error_propagates (error : JsError) :
  fetchLayoutData env service path lang req' res' = Thrown error →
  responseStatus error ≠ Some 404%Z →
  responseStatus error ≠ Some 401%Z →
  create env context this =
    (Thrown error,
     {| layoutService := service |},
     [EvGetSession context;
      EvFetchLayoutData service path lang req' res';
      EvConsoleLog error]).
Proof.
  intros Hfetch H404 H401.
  assert (Hno : ∀ code, responseStatus error ≠ Some code → statusIs error code = false).
  { intros code Hne. unfold statusIs.
    destruct (responseStatus error) as [st |]; [| done].
    apply Z.eqb_neq. congruence. }
  unfold create. rewrite Hnormal, Hsession. run.
  destruct this as [svc0].
  destruct session as [s |]; run; cbn in Hfetch; rewrite Hfetch; run;
    by rewrite (Hno _ H404), (Hno _ H401).
Qed.

(** C6. In normal mode a layout fetch that succeeds with layout data
    without a route gives [notFound = true]: after the dictionary fetch
    the result carries that flag, no [sitecoreContext] and no component
    props. *)
Theorem create_layout_without_route (ld : LayoutServiceData) :
  fetchLayoutData env service path lang req' res' = Returned ld →
  route (sitecore ld) = None →
  create env context this =
    (match fetchDictionaryData env lang with
     | Returned phrases =>
         Returned {| locale := lang;
                     dictionary := phrases;
                     sitecoreContext := None;
                     componentProps := ∅;
                     notFound := true;
                     unauthorized := false |}
     | Thrown e => Thrown e
     end,
     {| layoutService := service |},
     [EvGetSession context;
      EvFetchLayoutData service path lang req' res';
      EvFetchDictionaryData lang]).
Proof.
  intros Hfetch Hroute. unfold create. rewrite Hnormal, Hsession. run.
  destruct this as [svc0].
  destruct session as [s |]; run; cbn in Hfetch; rewrite Hfetch; run;
    rewrite Hroute; destruct (fetchDictionaryData env lang); run;
    by rewrite ?Hroute.
Qed.
End NormalMode.

Section PreviewMode.
Variables (env : Environment) (context : PropsContext) (this : Factory).
Variable session : option Session.
Hypothesis Hpreview : truthy (preview context) = true.
Hypothesis Hsession : getSession env context = Returned session.

(** C4. In preview mode an editing-data lookup that returns [null] makes
    [create] throw the editing-data error right after the lookup; nothing
    is returned. *)
Theorem create_preview_without_editing_data :
  getEditingData env (previewData context) = Returned None →
  create env context this =
    (Thrown (EditingDataError (previewData context)),
     this,
     [EvGetSession context; EvGetEditingData (previewData context)]).
Proof.
  intros Hdata. unfold create. rewrite Hpreview, Hsession. run.
  by rewrite Hdata.
Qed.

(** C8. In preview mode with editing data, the locale and the dictionary
    of the result are the editing data's, the context payload is built
    from the editing data's layout data, which is also what a
    component-props service receives, and the resolution calls neither the
    layout service (the only consumer of an extracted path) nor the
    dictionary service; it throws only if the component-props fetch
    does. *)
Theorem create_preview_adopts_editing_data
    (data : EditingData) (out : Outcome SitecorePageProps)
    (this' : Factory) (evs : list Event) :
  getEditingData env (previewData context) = Returned (Some data) →
  create env context this = (out, this', evs) →
  this' = this ∧
  List.filter isLayoutFetch evs = [] ∧
  List.filter isDictionaryFetch evs = [] ∧
  evs = ([EvGetSession context; EvGetEditingData (previewData context)]
           ++ List.filter isComponentPropsFetch evs)%list ∧
  (∀ ld c,
     EvFetchServerSideComponentProps ld c ∈ evs ∨
     EvFetchStaticComponentProps ld c ∈ evs →
     ed_layoutData data = Some ld ∧ c = context) ∧
  (∀ r, out = Returned r →
     locale r = ed_language data ∧
     dictionary r = ed_dictionary data ∧
     sitecoreContext r =
       (ld ← ed_layoutData data;
        rt ← route (sitecore ld);
        Some (contextPayload rt (layoutContext (sitecore ld)))) ∧
     notFound r = false ∧
     unauthorized r = false) ∧
  (∀ e, out = Thrown e →
     ∃ ld, ed_layoutData data = Some ld ∧ is_Some (route (sitecore ld)) ∧
       (if isServerSidePropsContext context
        then fetchServerSideComponentProps env ld context
        else fetchStaticComponentProps env ld context) = Thrown e).
Proof.
  intros Hdata. unfold create. rewrite Hpreview, Hsession. run.
  rewrite Hdata. run. repeat answer.
  all: intros [= <- <- <-]; cbn.
  all: split_and!; try done.
  all: try (intros ld c [Hin | Hin];
            repeat (apply elem_of_cons in Hin as [Hin | Hin]);
            first [by apply elem_of_nil in Hin | by simplify_eq]).
  all: try (intros ? [= <-]; by split_and!).
  all: try (intros ? [= <-]; eexists; by split_and!).
Qed.
End PreviewMode.

(** ** Properties of every resolution *)

Lemma lookup_contextPayload (r : RouteData) (bag : gmap string JsValue) (k : string) :
  contextPayload r bag !! k =
    match bag !! k with
    | Some v => Some (VJson v)
    | None =>
        if decide (k = "route") then Some (VRoute r)
        else if decide (k = "itemId") then Some (VJson (optionalString (itemId r)))
        else None
    end.
Proof.
  unfold contextPayload. rewrite lookup_union, lookup_fmap.
  destruct (bag !! k) as [v |]; cbn.
  - by destruct (<[_:=_]> _ !! k).
  - rewrite (left_id None _).
    repeat case_decide; subst; by simplify_map_eq.
Qed.

(** C7. Whenever the layout data a resolution adopts has a route, the
    returned [sitecoreContext] holds, at each key, the entry of the layout's
    context bag when the bag has one, and otherwise the route under [route]
    and the route's item id under [itemId] (the string itself, or
    [undefined] for a route without one): the bag is spread last, so its
    own [route] or [itemId] entries overwrite those two fields. *)
Theorem create_context_payload
    (env : Environment) (context : PropsContext) (this this' : Factory)
    (ld : LayoutServiceData) (rt : RouteData)
    (r : SitecorePageProps) (evs : list Event) :
  resolvedLayout env context this = Some ld →
  route (sitecore ld) = Some rt →
  create env context this = (Returned r, this', evs) →
  ∃ sc : SitecoreContextValue,
    sitecoreContext r = Some sc ∧
    ∀ k : string,
      sc !! k =
        match layoutContext (sitecore ld) !! k with
        | Some v => Some (VJson v)
        | None =>
            if decide (k = "route") then Some (VRoute rt)
            else if decide (k = "itemId") then
              match itemId rt with
              | Some id => Some (VJson (JStr id))
              | None => Some (VJson JUndefined)
              end
            else None
        end.
Proof.
  unfold resolvedLayout. destruct this as [svc0]. answers.
  all: intros Hld Hrt; simplify_eq.
  all: intros [= <- <- <-]; cbn.
  all: eexists; split; [reflexivity |].
  all: intros k; rewrite lookup_contextPayload; unfold optionalString.
  all: match goal with |- context [itemId ?x] => by destruct (itemId x) end.
Qed.


(** C10. A result without [sitecoreContext] has the empty component props,
    and the resolution that returned it called neither component-props
    service. *)
Theorem create_without_context_fetches_no_props
    (env : Environment) (context : PropsContext) (this this' : Factory)
    (r : SitecorePageProps) (evs : list Event) :
  create env context this = (Returned r, this', evs) →
  sitecoreContext r = None →
  componentProps r = ∅ ∧ List.filter isComponentPropsFetch evs = [].
Proof.
  answers. all: intros [= <- <- <-]; cbn; by intros ?.
Qed.

(** ** The sample site, resolved *)

(** C1 fails on the code: for a layout fetch that fails with status 401 the
    result has [unauthorized = true] and also [notFound = true], because the
    route check after the fetch sets [notFound] whenever no layout data is
    left. *)
Theorem create_layout_401_sets_both_flags :
  create sampleEnvironment (staticContext ["private"]) sampleFactory =
    (Returned (flaggedProps true true),
     sampleFactory,
     [EvGetSession (staticContext ["private"]);
      EvFetchLayoutData (layoutServiceFactory_create None) "/private" "en" None None;
      EvConsoleLog (httpError 401);
      EvFetchDictionaryData "en"]).
Proof.
  exact (create_layout_401 sampleEnvironment (staticContext ["private"]) sampleFactory
           None eq_refl eq_refl (httpError 401) eq_refl eq_refl).
Qed.

Lemma create_layout_404_witness :
  truthy (preview (staticContext ["missing"])) = false ∧
  getSession sampleEnvironment (staticContext ["missing"]) = Returned None ∧
  fetchLayoutData sampleEnvironment (layoutService sampleFactory)
    "/missing" "en" None None = Thrown (httpError 404) ∧
  responseStatus (httpError 404) = Some 404%Z ∧
  create sampleEnvironment (staticContext ["missing"]) sampleFactory =
    (Returned (flaggedProps true false),
     sampleFactory,
     [EvGetSession (staticContext ["missing"]);
      EvFetchLayoutData (layoutServiceFactory_create None) "/missing" "en" None None;
      EvConsoleLog (httpError 404);
      EvFetchDictionaryData "en"]).
Proof.
  do 4 (split; [reflexivity |]).
  exact (create_layout_404 sampleEnvironment (staticContext ["missing"]) sampleFactory
           None eq_refl eq_refl (httpError 404) eq_refl eq_refl).
Defined.

(** C2 as stated fails: on the sample site with the dictionary service out
    of order, the page [/missing] gets a 404 from the layout service and
    the dictionary error is thrown, so no result is returned. *)
Lemma create_layout_404_counterexample :
  ¬ (∀ (env : Environment) (context : PropsContext) (this : Factory)
       (session : option Session) (error : JsError),
       truthy (preview context) = false →
       getSession env context = Returned session →
       fetchLayoutData env
         (match session with
          | Some s => layoutServiceFactory_create (Some s)
          | None => layoutService this
          end)
         (extractPath (params context))
         (default (pkg_config_language env) (ctx_locale context))
         (if isServerSidePropsContext context then req context else None)
         (if isServerSidePropsContext context then res context else None)
         = Thrown error →
       responseStatus error = Some 404%Z →
       ∃ r this' evs,
         create env context this = (Returned r, this', evs) ∧
         notFound r = true ∧
         unauthorized r = false ∧
         sitecoreContext r = None ∧
         EvFetchDictionaryData (default (pkg_config_language env) (ctx_locale context))
           ∈ evs).
Proof.
  intros H.
  destruct (H brokenDictionaryEnvironment (staticContext ["missing"]) sampleFactory
              None (httpError 404) eq_refl eq_refl eq_refl eq_refl)
    as (r & this' & evs & Hrun & _).
  assert (Hthrown :
            create brokenDictionaryEnvironment (staticContext ["missing"]) sampleFactory
            = (Thrown networkError, sampleFactory,
               [EvGetSession (staticContext ["missing"]);
                EvFetchLayoutData (layoutServiceFactory_create None)
                  "/missing" "en" None None;
                EvConsoleLog (httpError 404);
                EvFetchDictionaryData "en"]))
    by reflexivity.
  rewrite Hthrown in Hrun. discriminate Hrun.
Qed.

Lemma create_preview_without_editing_data_witness :
  truthy (preview (previewContext JNull)) = true ∧
  getSession sampleEnvironment (previewContext JNull) = Returned None ∧
  getEditingData sampleEnvironment (previewData (previewContext JNull)) = Returned None ∧
  create sampleEnvironment (previewContext JNull) sampleFactory =
    (Thrown (EditingDataError JNull),
     sampleFactory,
     [EvGetSession (previewContext JNull); EvGetEditingData JNull]).
Proof.
  do 3 (split; [reflexivity |]).
  exact (create_preview_without_editing_data sampleEnvironment (previewContext JNull)
           sampleFactory None eq_refl eq_refl eq_refl).
Defined.

Lemma create_layout_error_propagates_witness :
  truthy (preview (staticContext ["broken"])) = false ∧
  getSession sampleEnvironment (staticContext ["broken"]) = Returned None ∧
  fetchLayoutData sampleEnvironment (layoutService sampleFactory)
    "/broken" "en" None None = Thrown networkError ∧
  responseStatus networkError = None ∧
  create sampleEnvironment (staticContext ["broken"]) sampleFactory =
    (Thrown networkError,
     sampleFactory,
     [EvGetSession (staticContext ["broken"]);
      EvFetchLayoutData (layoutServiceFactory_create None) "/broken" "en" None None;
      EvConsoleLog networkError]).
Proof.
  do 4 (split; [reflexivity |]).
  refine (create_layout_error_propagates sampleEnvironment (staticContext ["broken"])
            sampleFactory None eq_refl eq_refl networkError eq_refl _ _);
    discriminate.
Defined.

Lemma create_layout_without_route_witness :
  truthy (preview (staticContext ["empty"])) = false ∧
  getSession sampleEnvironment (staticContext ["empty"]) = Returned None ∧
  fetchLayoutData sampleEnvironment (layoutService sampleFactory)
    "/empty" "en" None None = Returned routelessLayout ∧
  route (sitecore routelessLayout) = None ∧
  create sampleEnvironment (staticContext ["empty"]) sampleFactory =
    (Returned (flaggedProps true false),
     sampleFactory,
     [EvGetSession (staticContext ["empty"]);
      EvFetchLayoutData (layoutServiceFactory_create None) "/empty" "en" None None;
      EvFetchDictionaryData "en"]).
Proof.
  do 4 (split; [reflexivity |]).
  exact (create_layout_without_route sampleEnvironment (staticContext ["empty"])
           sampleFactory None eq_refl eq_refl routelessLayout eq_refl eq_refl).
Defined.

Lemma create_context_payload_witness :
  (resolvedLayout sampleEnvironment (staticContext ["home"]) sampleFactory
     = Some homeLayout ∧
   route (sitecore homeLayout) = Some homeRoute ∧
   create sampleEnvironment (staticContext ["home"]) sampleFactory =
     (Returned (homeProps {[ "uid-1" := JStr "ssg" ]}),
      sampleFactory,
      [EvGetSession (staticContext ["home"]);
       EvFetchLayoutData (layoutServiceFactory_create None) "/home" "en" None None;
       EvFetchDictionaryData "en";
       EvFetchStaticComponentProps homeLayout (staticContext ["home"])]) ∧
   ∃ sc : SitecoreContextValue,
     sitecoreContext (homeProps {[ "uid-1" := JStr "ssg" ]}) = Some sc ∧
     sc !! "route" = Some (VRoute homeRoute) ∧
     sc !! "itemId" = Some (VJson (JStr "home-id")) ∧
     sc !! "language" = Some (VJson (JStr "en")) ∧
     sc !! "site" = None) ∧
  (resolvedLayout sampleEnvironment (previewContext (JStr "token")) sampleFactory
     = Some shadowingLayout ∧
   route (sitecore shadowingLayout) = Some homeRoute ∧
   create sampleEnvironment (previewContext (JStr "token")) sampleFactory =
     (Returned previewProps,
      sampleFactory,
      [EvGetSession (previewContext (JStr "token"));
       EvGetEditingData (JStr "token");
       EvFetchStaticComponentProps shadowingLayout (previewContext (JStr "token"))]) ∧
   ∃ sc : SitecoreContextValue,
     sitecoreContext previewProps = Some sc ∧
     sc !! "route" = Some (VJson JNull) ∧
     sc !! "itemId" = Some (VJson (JStr "bag-id")) ∧
     sc !! "language" = None).
Proof.
  split.
  - do 3 (split; [reflexivity |]).
    destruct (create_context_payload sampleEnvironment (staticContext ["home"])
                sampleFactory sampleFactory homeLayout homeRoute
                (homeProps {[ "uid-1" := JStr "ssg" ]}) _
                eq_refl eq_refl eq_refl) as (sc & Hsc & Hlookup).
    exists sc. split; [exact Hsc |].
    rewrite !Hlookup. by split_and!.
  - do 3 (split; [reflexivity |]).
    destruct (create_context_payload sampleEnvironment (previewContext (JStr "token"))
                sampleFactory sampleFactory shadowingLayout homeRoute previewProps _
                eq_refl eq_refl eq_refl) as (sc & Hsc & Hlookup).
    exists sc. split; [exact Hsc |].
    rewrite !Hlookup. by split_and!.
Defined.

Lemma create_preview_adopts_editing_data_witness :
  truthy (preview (previewContext (JStr "token"))) = true ∧
  getSession sampleEnvironment (previewContext (JStr "token")) = Returned None ∧
  getEditingData sampleEnvironment (previewData (previewContext (JStr "token")))
    = Returned (Some sampleEditingData) ∧
  create sampleEnvironment (previewContext (JStr "token")) sampleFactory =
    (Returned previewProps,
     sampleFactory,
     [EvGetSession (previewContext (JStr "token"));
      EvGetEditingData (JStr "token");
      EvFetchStaticComponentProps shadowingLayout (previewContext (JStr "token"))]) ∧
  locale previewProps = ed_language sampleEditingData ∧
  dictionary previewProps = ed_dictionary sampleEditingData.
Proof.
  do 4 (split; [reflexivity |]).
  destruct (create_preview_adopts_editing_data sampleEnvironment
              (previewContext (JStr "token")) sampleFactory None eq_refl eq_refl
              sampleEditingData _ _ _ eq_refl eq_refl)
    as (_ & _ & _ & _ & _ & Hresult & _).
  destruct (Hresult previewProps eq_refl) as (Hlocale & Hdictionary & _).
  split; [exact Hlocale | exact Hdictionary].
Defined.


Lemma create_without_context_fetches_no_props_witness :
  create sampleEnvironment (staticContext ["empty"]) sampleFactory =
    (Returned (flaggedProps true false),
     sampleFactory,
     [EvGetSession (staticContext ["empty"]);
      EvFetchLayoutData (layoutServiceFactory_create None) "/empty" "en" None None;
      EvFetchDictionaryData "en"]) ∧
  sitecoreContext (flaggedProps true false) = None ∧
  componentProps (flaggedProps true false) = ∅ ∧
  List.filter isComponentPropsFetch
    [EvGetSession (staticContext ["empty"]);
     EvFetchLayoutData (layoutServiceFactory_create None) "/empty" "en" None None;
     EvFetchDictionaryData "en"] = [].
Proof.
  do 2 (split; [reflexivity |]).
  exact (create_without_context_fetches_no_props sampleEnvironment
           (staticContext ["empty"]) sampleFactory sampleFactory
           (flaggedProps true false) _ eq_refl eq_refl).
Defined.

(** ** More on [extractPath] *)

Lemma startsWith_extractPath (params : option ParsedUrlQuery) :
  startsWith (extractPath params) "/" = true.
Proof.
  destruct params as [params |]; [| reflexivity].
  unfold extractPath.
  destruct (params !! "path") as [[s | segments] |]; [| | reflexivity].
  - by destruct (startsWith s "/") eqn:Hs.
  - by destruct (startsWith (join "/" segments) "/") eqn:Hs.
Qed.

(** X1. Whatever the route parameters, the resolved path starts with a
    slash, and handing it back as the path parameter resolves to the same
    path. *)
Theorem extractPath_normal_form (params : option ParsedUrlQuery) :
  startsWith (extractPath params) "/" = true ∧
  extractPath (Some {[ "path" := QString (extractPath params) ]}) = extractPath params.
Proof.
  split; [apply startsWith_extractPath |].
  rewrite (extractPath_some _ (QString (extractPath params)));
    [| apply lookup_singleton_eq].
  cbn [pathParameter]. by rewrite startsWith_extractPath.
Qed.

Lemma append_eq_empty (a b : string) : a ++ b = "" → a = "" ∧ b = "".
Proof. destruct a; [done | discriminate]. Qed.

Lemma join_root_iff (segments : list string) :
  join "/" segments = "" ∨ join "/" segments = "/" ↔
  segments = [] ∨ segments = [""] ∨ segments = ["/"] ∨ segments = [""; ""].
Proof.
  split.
  - destruct segments as [| a [| b rest]].
    + by left.
    + cbn [join]. intros [-> | ->]; [right; by left | right; right; by left].
    + change (join "/" (a :: b :: rest)) with (a ++ String "/" (join "/" (b :: rest))).
      intros [H | H].
      * by apply append_eq_empty in H as [_ ?].
      * destruct a as [| c a]; cbn in H.
        -- injection H as H. destruct rest as [| b' rest].
           ++ cbn [join] in H. subst b. by do 3 right.
           ++ change (join "/" (b :: b' :: rest))
                with (b ++ String "/" (join "/" (b' :: rest))) in H.
              by apply append_eq_empty in H as [_ ?].
        -- injection H as _ H. by apply append_eq_empty in H as [_ ?].
  - intros [-> | [-> | [-> | ->]]]; cbn; auto.
Qed.

(** X2. With route parameters present, the resolved path is the root [/]
    exactly when there is no path parameter, or the parameter is the string
    [""] or ["/"], or it is one of the arrays [[]], [[""]], [["/"]] and
    [[""; ""]], which join to one of these two strings. *)
Theorem extractPath_root_iff (params : ParsedUrlQuery) :
  extractPath (Some params) = "/" ↔
  match params !! "path" with
  | None => True
  | Some (QString s) => s = "" ∨ s = "/"
  | Some (QArray segments) =>
      segments = [] ∨ segments = [""] ∨ segments = ["/"] ∨ segments = [""; ""]
  end.
Proof.
  assert (Hjoined : ∀ v, params !! "path" = Some v →
            extractPath (Some params) = "/" ↔
            pathParameter v = "" ∨ pathParameter v = "/").
  { intros v Hv. rewrite (extractPath_some _ _ Hv).
    destruct (pathParameter v) as [| c p] eqn:Hp.
    - split; [by left | reflexivity].
    - destruct (startsWith (String c p) "/") eqn:Hs.
      + split; [by right | by intros [? | ?]].
      + split.
        * by intros [= ?].
        * intros [? | [= -> ->]]; [done | discriminate Hs]. }
  destruct (params !! "path") as [[s | segments] |] eqn:Hv.
  - exact (Hjoined _ eq_refl).
  - rewrite (Hjoined _ eq_refl). cbn [pathParameter]. apply join_root_iff.
  - unfold extractPath. by rewrite Hv.
Qed.

Lemma hasDuplicateSlash_slashFree_app (s r : string) :
  slashFree s = true →
  hasDuplicateSlash (s ++ r) = hasDuplicateSlash r.
Proof.
  induction s as [| c s IH]; [done |].
  cbn [slashFree]. intros [Hc Hs]%andb_prop.
  apply negb_true_iff in Hc.
  change (String c s ++ r) with (String c (s ++ r)).
  cbn [hasDuplicateSlash]. by rewrite Hc, IH.
Qed.

Lemma startsWith_segment_app (s r : string) :
  isSegment s = true → startsWith (s ++ r) "/" = false.
Proof.
  unfold isSegment. destruct s as [| c s]; [done |].
  cbn [slashFree]. intros [_ [Hc _]%andb_prop]%andb_prop.
  apply negb_true_iff in Hc.
  change (String c s ++ r) with (String c (s ++ r)).
  by rewrite startsWith_cons, Hc.
Qed.

Lemma append_empty_r (s : string) : s ++ "" = s.
Proof.
  induction s as [| c s IH]; [done |].
  change (String c s ++ "") with (String c (s ++ "")). by rewrite IH.
Qed.

Lemma join_segments_clean (segments : list string) :
  forallb isSegment segments = true →
  startsWith (join "/" segments) "/" = false ∧
  hasDuplicateSlash (join "/" segments) = false.
Proof.
  induction segments as [| s rest IH]; [done |].
  cbn [forallb]. intros [Hs Hrest]%andb_prop.
  destruct (IH Hrest) as [IHstart IHdup].
  assert (Hfree : slashFree s = true).
  { unfold isSegment in Hs. by apply andb_prop in Hs as [_ ?]. }
  destruct rest as [| s' rest'].
  - cbn [join]. rewrite <- (append_empty_r s). split.
    + by apply startsWith_segment_app.
    + by rewrite hasDuplicateSlash_slashFree_app.
  - change (join "/" (s :: s' :: rest')) with (s ++ "/" ++ join "/" (s' :: rest')).
    split.
    + by apply startsWith_segment_app.
    + rewrite hasDuplicateSlash_slashFree_app by done.
      by rewrite hasDuplicateSlash_prepend.
Qed.

(** X3. When the path parameter is an array of segments that are not empty
    and hold no slash, the resolved path is the segments joined with
    slashes behind one leading slash, and it has no doubled slash. *)
Theorem extractPath_segments (params : ParsedUrlQuery) (segments : list string) :
  params !! "path" = Some (QArray segments) →
  forallb isSegment segments = true →
  extractPath (Some params) = "/" ++ join "/" segments ∧
  hasDuplicateSlash (extractPath (Some params)) = false.
Proof.
  intros Hv Hsegments.
  destruct (join_segments_clean segments Hsegments) as [Hstart Hdup].
  rewrite (extractPath_some _ _ Hv). cbn [pathParameter]. rewrite Hstart.
  split; [reflexivity |]. by rewrite hasDuplicateSlash_prepend.
Qed.

(** ** Normal mode, past the layout fetch *)

Section NormalModeRuns.
Variables (env : Environment) (context : PropsContext) (this : Factory).
Variable session : option Session.
Hypothesis Hnormal : truthy (preview context) = false.
Hypothesis Hsession : getSession env context = Returned session.

Local Abbreviation path := (extractPath (params context)).
Local Abbreviation lang := (default (pkg_config_language env) (ctx_locale context)).
Local Abbreviation service :=
  (match session with
   | Some s => layoutServiceFactory_create (Some s)
   | None => layoutService this
   end).
Local Abbreviation req' := (if isServerSidePropsContext context then req context else None).
Local Abbreviation res' := (if isServerSidePropsContext context then res context else None).

(** In normal mode, once the session is known, the layout is fetched on the
    service the session selects, and the factory holds that service from
    then on. *)
Lemma create_normal_prefix (out : Outcome SitecorePageProps) (this' : Factory)
    (evs : list Event) :
  create env context this = (out, this', evs) →
  this' = {| layoutService := service |} ∧
  ∃ rest, evs = EvGetSession context
                  :: EvFetchLayoutData service path lang req' res' :: rest.
Proof.
  unfold create. rewrite Hnormal, Hsession. run. destruct this as [svc0].
  destruct session as [s |]; run; repeat answer.
  all: intros [= <- <- <-]; split; [reflexivity | by eexists].
Qed.

(** X4. In normal mode, when the layout fetch returns layout data with a
    route and the dictionary and component-props fetches succeed, [create]
    returns the resolved locale, the dictionary, the context payload of the
    layout data and the fetched component props, with both flags false; the
    calls are session, layout, dictionary, component props, in that order. *)
Theorem create_layout_with_route
    (ld : LayoutServiceData) (rt : RouteData)
    (phrases : DictionaryPhrases) (cp : ComponentPropsCollection) :
  fetchLayoutData env service path lang req' res' = Returned ld →
  route (sitecore ld) = Some rt →
  fetchDictionaryData env lang = Returned phrases →
  (if isServerSidePropsContext context
   then fetchServerSideComponentProps env ld context
   else fetchStaticComponentProps env ld context) = Returned cp →
  create env context this =
    (Returned {| locale := lang;
                 dictionary := phrases;
                 sitecoreContext := Some (contextPayload rt (layoutContext (sitecore ld)));
                 componentProps := cp;
                 notFound := false;
                 unauthorized := false |},
     {| layoutService := service |},
     [EvGetSession context;
      EvFetchLayoutData service path lang req' res';
      EvFetchDictionaryData lang;
      if isServerSidePropsContext context
      then EvFetchServerSideComponentProps ld context
      else EvFetchStaticComponentProps ld context]).
Proof.
  intros Hfetch Hroute Hdict Hprops.
  unfold create. rewrite Hnormal, Hsession. run. destruct this as [svc0].
  destruct session as [s |]; run; cbn in Hfetch; rewrite Hfetch; run;
    rewrite Hroute, Hdict; run; rewrite Hroute; run;
    destruct (isServerSidePropsContext context); run; by rewrite Hprops.
Qed.

(** X5. In normal mode, when the dictionary fetch fails after the layout
    fetch returned or was recovered from a 404 or 401, [create] throws the
    dictionary error; the dictionary fetch is its last call and no
    component props are fetched, route or not. *)
Theorem create_dictionary_error (e : JsError) :
  match fetchLayoutData env service path lang req' res' with
  | Returned _ => True
  | Thrown error => statusIs error 404 || statusIs error 401 = true
  end →
  fetchDictionaryData env lang = Thrown e →
  ∃ evs,
    create env context this = (Thrown e, {| layoutService := service |}, evs) ∧
    last evs = Some (EvFetchDictionaryData lang) ∧
    List.filter isComponentPropsFetch evs = [].
Proof.
  intros Hlayout Hdict.
  unfold create. rewrite Hnormal, Hsession. run. destruct this as [svc0].
  destruct session as [s |]; run; cbn in Hlayout;
    destruct (fetchLayoutData env _ path lang req' res') as [ld | error]; run;
    try (destruct (statusIs error 404); cbn in Hlayout; try rewrite Hlayout; run);
    rewrite Hdict; run; by eexists.
Qed.
End NormalModeRuns.

(** ** What every resolution does and never does *)

(** X6. A failure of the component-props fetch is not recovered: when the
    service a resolution called rejects, [create] throws that error. *)
Theorem create_component_props_error
    (env : Environment) (context : PropsContext) (this this' : Factory)
    (out : Outcome SitecorePageProps) (evs : list Event)
    (ld : LayoutServiceData) (c : PropsContext) (e : JsError) :
  create env context this = (out, this', evs) →
  (EvFetchServerSideComponentProps ld c ∈ evs ∧
   fetchServerSideComponentProps env ld c = Thrown e) ∨
  (EvFetchStaticComponentProps ld c ∈ evs ∧
   fetchStaticComponentProps env ld c = Thrown e) →
  out = Thrown e.
Proof.
  answers.
  all: intros [= <- <- <-] [[Hin Hthrown] | [Hin Hthrown]]; event_cases Hin.
  all: simplify_eq; congruence.
Qed.

(** X7. The session lookup is the first call of every resolution; when it
    rejects, [create] throws its error, calls nothing else and leaves the
    factory as it was. *)
Theorem create_session_first
    (env : Environment) (context : PropsContext) (this this' : Factory)
    (out : Outcome SitecorePageProps) (evs : list Event) :
  create env context this = (out, this', evs) →
  (∃ rest, evs = EvGetSession context :: rest) ∧
  (∀ e, getSession env context = Thrown e →
     out = Thrown e ∧ evs = [EvGetSession context] ∧ this' = this).
Proof.
  destruct this as [svc0]. answers.
  all: intros [= <- <- <-]; split; [by eexists |].
  all: by intros e' [= <-].
Qed.

(** X8. The two modes do not mix: a preview resolution makes no layout
    fetch, no dictionary fetch, logs nothing and leaves the factory as it
    was, also when it fails; a normal resolution never looks up editing
    data. *)
Theorem create_modes_exclusive
    (env : Environment) (context : PropsContext) (this this' : Factory)
    (out : Outcome SitecorePageProps) (evs : list Event) :
  create env context this = (out, this', evs) →
  (truthy (preview context) = true →
     this' = this ∧
     List.filter isLayoutFetch evs = [] ∧
     List.filter isDictionaryFetch evs = [] ∧
     List.filter isConsoleLog evs = []) ∧
  (truthy (preview context) = false →
     List.filter isEditingDataLookup evs = []).
Proof.
  destruct this as [svc0]. answers.
  all: intros [= <- <- <-]; split; by intros ?.
Qed.

(** X9. A resolution looks up the session once and calls each of the other
    services at most once: editing data, layout, dictionary, and a
    component-props service. *)
Theorem create_calls_at_most_once
    (env : Environment) (context : PropsContext) (this this' : Factory)
    (out : Outcome SitecorePageProps) (evs : list Event) :
  create env context this = (out, this', evs) →
  List.length (List.filter isSessionLookup evs) = 1%nat ∧
  (List.length (List.filter isEditingDataLookup evs) ≤ 1)%nat ∧
  (List.length (List.filter isLayoutFetch evs) ≤ 1)%nat ∧
  (List.length (List.filter isDictionaryFetch evs) ≤ 1)%nat ∧
  (List.length (List.filter isComponentPropsFetch evs) ≤ 1)%nat.
Proof.
  answers.
  all: intros [= <- <- <-]; cbn; split_and!; lia.
Qed.

(** X10. The layout fetch gets the extracted path, the resolved locale
    (the context's, else the configured language), the context's [req],
    and its [res] only next to a [req]; the dictionary fetch gets the same
    locale, which is also the locale of a normal-mode result. *)
Theorem create_fetch_arguments
    (env : Environment) (context : PropsContext) (this this' : Factory)
    (out : Outcome SitecorePageProps) (evs : list Event) :
  create env context this = (out, this', evs) →
  (∀ svc p l rq rs,
     EvFetchLayoutData svc p l rq rs ∈ evs →
     p = extractPath (params context) ∧
     l = default (pkg_config_language env) (ctx_locale context) ∧
     rq = req context ∧
     rs = match req context with Some _ => res context | None => None end) ∧
  (∀ l, EvFetchDictionaryData l ∈ evs →
     l = default (pkg_config_language env) (ctx_locale context)) ∧
  (∀ r, out = Returned r → truthy (preview context) = false →
     locale r = default (pkg_config_language env) (ctx_locale context)).
Proof.
  answers.
  all: intros [= <- <- <-]; split_and!.
  all: try (intros svc p loc rq rs Hin; event_cases Hin; simplify_eq;
            unfold isServerSidePropsContext in *; by destruct (req context)).
  all: try (intros loc Hin; event_cases Hin; by simplify_eq).
  all: by intros r' [= <-] ?.
Qed.

(** X11. The only thing a resolution changes in the factory: in normal
    mode with a session, the layout service is replaced by one created for
    that session, and stays replaced whatever the outcome; in every other
    case the factory is left as it was. *)
Theorem create_factory_effect
    (env : Environment) (context : PropsContext) (this this' : Factory)
    (out : Outcome SitecorePageProps) (evs : list Event) :
  create env context this = (out, this', evs) →
  this' =
    match getSession env context with
    | Returned (Some s) =>
        if truthy (preview context) then this
        else {| layoutService := layoutServiceFactory_create (Some s) |}
    | _ => this
    end.
Proof.
  destruct this as [svc0]. answers.
  all: by intros [= <- <- <-].
Qed.

(** X12. The replaced layout service outlives the resolution: after a
    normal-mode resolution with a session, a later normal-mode resolution
    without a session on the same factory fetches its layout through the
    service created for the earlier session. *)
Theorem create_session_service_persists
    (env : Environment) (first later : PropsContext) (this this1 this2 : Factory)
    (s : Session) (out1 out2 : Outcome SitecorePageProps) (evs1 evs2 : list Event) :
  truthy (preview first) = false →
  getSession env first = Returned (Some s) →
  create env first this = (out1, this1, evs1) →
  truthy (preview later) = false →
  getSession env later = Returned None →
  create env later this1 = (out2, this2, evs2) →
  this2 = this1 ∧
  ∃ rest,
    evs2 = EvGetSession later
             :: EvFetchLayoutData (layoutServiceFactory_create (Some s))
                  (extractPath (params later))
                  (default (pkg_config_language env) (ctx_locale later))
                  (if isServerSidePropsContext later then req later else None)
                  (if isServerSidePropsContext later then res later else None)
             :: rest.
Proof.
  intros Hn1 Hs1 Hrun1 Hn2 Hs2 Hrun2.
  destruct (create_normal_prefix env first this (Some s) Hn1 Hs1 _ _ _ Hrun1)
    as [-> _].
  destruct (create_normal_prefix env later _ None Hn2 Hs2 _ _ _ Hrun2)
    as [-> Hevs].
  split; [reflexivity | exact Hevs].
Qed.

(** X19. On a newly constructed factory, a normal-mode resolution fetches
    its layout through the service created for the session just looked up,
    or for no session when there is none, and leaves that service in the
    factory. *)
Theorem create_on_new_factory
    (env : Environment) (context : PropsContext) (session : option Session)
    (this' : Factory) (out : Outcome SitecorePageProps) (evs : list Event) :
  truthy (preview context) = false →
  getSession env context = Returned session →
  create env context SitecorePagePropsFactory_new = (out, this', evs) →
  this' = {| layoutService := layoutServiceFactory_create session |} ∧
  ∃ rest,
    evs = EvGetSession context
            :: EvFetchLayoutData (layoutServiceFactory_create session)
                 (extractPath (params context))
                 (default (pkg_config_language env) (ctx_locale context))
                 (if isServerSidePropsContext context then req context else None)
                 (if isServerSidePropsContext context then res context else None)
            :: rest.
Proof.
  intros Hnormal Hsession Hrun.
  destruct (create_normal_prefix env context _ session Hnormal Hsession _ _ _ Hrun)
    as [-> Hevs].
  by destruct session.
Qed.

Lemma statusIs_spec (error : JsError) (code : Z) :
  statusIs error code = true ↔ responseStatus error = Some code.
Proof.
  unfold statusIs. destruct (responseStatus error) as [st |]; [| done].
  rewrite Z.eqb_eq. split; congruence.
Qed.

(** X13. How the flags of a result go with its context payload: a result
    with a [sitecoreContext] has both flags false; a normal-mode result has
    [notFound] set exactly when it has no [sitecoreContext]; a preview
    result has both flags false; and [unauthorized] is set exactly when a
    layout error with status 401 was logged. *)
Theorem create_flags
    (env : Environment) (context : PropsContext) (this this' : Factory)
    (r : SitecorePageProps) (evs : list Event) :
  create env context this = (Returned r, this', evs) →
  (is_Some (sitecoreContext r) → notFound r = false ∧ unauthorized r = false) ∧
  (truthy (preview context) = false →
     (notFound r = true ↔ sitecoreContext r = None)) ∧
  (truthy (preview context) = true →
     notFound r = false ∧ unauthorized r = false) ∧
  (unauthorized r = true ↔
     ∃ error, EvConsoleLog error ∈ evs ∧ responseStatus error = Some 401%Z).
Proof.
  answers.
  all: intros [= <- <- <-]; cbn; split_and!; try done.
  all: try (by intros [? ?]).
  all: try (by split).
  all: split.
  all: try (intros _;
            match goal with
            | H : statusIs ?e 401 = true |- _ =>
                exists e; split; [set_solver | by apply statusIs_spec]
            end).
  all: try done.
  all: intros (err & Hin & Hstatus); event_cases Hin; simplify_eq.
  all: unfold statusIs in *; rewrite Hstatus in *; done.
Qed.

(** X14. What is logged is exactly the layout fetch's rejection: an error
    is logged if and only if the resolution made a layout fetch that
    rejected with it, whether it was then recovered or thrown on. *)
Theorem create_logs_layout_errors
    (env : Environment) (context : PropsContext) (this this' : Factory)
    (out : Outcome SitecorePageProps) (evs : list Event) (error : JsError) :
  create env context this = (out, this', evs) →
  EvConsoleLog error ∈ evs ↔
  ∃ svc p l rq rs,
    EvFetchLayoutData svc p l rq rs ∈ evs ∧
    fetchLayoutData env svc p l rq rs = Thrown error.
Proof.
  destruct this as [svc0]. answers.
  all: intros [= <- <- <-]; split.
  all: try (intros Hin; event_cases Hin; simplify_eq;
            (do 5 eexists; split; [| eassumption]; set_solver)).
  all: intros (svc & p & loc & rq & rs & Hin & Hthrown); event_cases Hin;
       simplify_eq; try congruence.
  all: match goal with
       | H1 : ?t = Thrown ?e1, H2 : ?t = Thrown ?e2 |- _ =>
           assert (e1 = e2) as -> by congruence
       end.
  all: set_solver.
Qed.

(** ** The page route *)

Lemma getServerSideProps_create
    (env : Environment) (context : PropsContext) (this : Factory) :
  getServerSideProps env context this =
    match create env context this with
    | (Returned props, this', evs) =>
        (Returned {| result_props := props;
                     result_notFound := if notFound props then Some true else None |},
         this', evs)
    | (Thrown e, this', evs) => (Thrown e, this', evs)
    end.
Proof.
  unfold getServerSideProps, mbind, Async_bind, bind.
  destruct (create env context this) as [[[props | e] this'] evs]; [| done].
  cbn. by rewrite app_nil_r.
Qed.

Lemma create_notFound
    (env : Environment) (context : PropsContext) (this this' : Factory)
    (r : SitecorePageProps) (evs : list Event) :
  create env context this = (Returned r, this', evs) →
  if truthy (preview context)
  then notFound r = false ∧ unauthorized r = false
  else notFound r = negb (bool_decide (is_Some (sitecoreContext r))).
Proof.
  answers.
  all: by intros [= <- <- <-].
Qed.

(** X15. [getServerSideProps] resolves the props with [create], makes no
    call of its own and throws what [create] throws. Next to the props it
    returns [notFound: true] when the props' flag is set and no [notFound]
    key otherwise, never [notFound: false]; in normal mode that is exactly
    when the props have no [sitecoreContext], and in preview mode never. *)
Theorem getServerSideProps_notFound
    (env : Environment) (context : PropsContext) (this this' : Factory)
    (out : Outcome ServerSidePropsResult) (evs : list Event) :
  getServerSideProps env context this = (out, this', evs) →
  create env context this =
    (match out with
     | Returned result => Returned (result_props result)
     | Thrown e => Thrown e
     end, this', evs) ∧
  ∀ result, out = Returned result →
    result_notFound result ≠ Some false ∧
    (result_notFound result = Some true ↔ notFound (result_props result) = true) ∧
    (truthy (preview context) = false →
       (result_notFound result = Some true ↔
        sitecoreContext (result_props result) = None)) ∧
    (truthy (preview context) = true → result_notFound result = None).
Proof.
  rewrite getServerSideProps_create.
  destruct (create env context this) as [[[props | e] this1] evs1] eqn:Hcreate.
  - intros [= <- <- <-]. split; [done |]. intros result [= <-]. cbn.
    pose proof (create_notFound _ _ _ _ _ _ Hcreate) as Hflags.
    destruct (truthy (preview context)).
    + destruct Hflags as [-> _]. by split_and!.
    + rewrite Hflags. destruct (sitecoreContext props) as [sc |]; cbn.
      * by split_and!.
      * by split_and!.
  - intros [= <- <- <-]. split; [done |]. by intros result.
Qed.

(** X16. For a normal-mode result whose layout context bag has no entry
    named [route], the flags alone decide what [SitecorePage] renders: the
    unauthorized view if [unauthorized], else the not-found view if
    [notFound], else the layout with the result's component props and
    context; the page's own check for a missing route never fires. *)
Theorem SitecorePage_normal_result
    (env : Environment) (context : PropsContext) (this this' : Factory)
    (r : SitecorePageProps) (evs : list Event) :
  truthy (preview context) = false →
  (∀ ld, resolvedLayout env context this = Some ld →
     layoutContext (sitecore ld) !! "route" = None) →
  create env context this = (Returned r, this', evs) →
  SitecorePage r =
    if unauthorized r then UnauthorizedElement
    else if notFound r then NotFoundElement
    else LayoutElement (componentProps r) (sitecoreContext r).
Proof.
  intros Hnormal. unfold resolvedLayout. rewrite Hnormal.
  destruct this as [svc0]. answers.
  all: intros Hbag [= <- <- <-]; try done.
  all: unfold SitecorePage, hasRoute; cbn -[contextPayload]; simplify_eq.
  all: rewrite lookup_contextPayload, (Hbag _ eq_refl).
  all: by rewrite decide_True.
Qed.

(** X17. A preview whose editing data has no route is not flagged: [create]
    returns a result without [sitecoreContext] and with [notFound] false,
    [getServerSideProps] adds no [notFound] key, and it is the page's own
    check for a missing route that renders the not-found view. *)
Theorem preview_without_route
    (env : Environment) (context : PropsContext) (this : Factory)
    (session : option Session) (data : EditingData) :
  truthy (preview context) = true →
  getSession env context = Returned session →
  getEditingData env (previewData context) = Returned (Some data) →
  routeOf (ed_layoutData data) = None →
  ∃ r,
    create env context this =
      (Returned r, this, [EvGetSession context; EvGetEditingData (previewData context)]) ∧
    sitecoreContext r = None ∧
    notFound r = false ∧
    getServerSideProps env context this =
      (Returned {| result_props := r; result_notFound := None |},
       this, [EvGetSession context; EvGetEditingData (previewData context)]) ∧
    SitecorePage r = NotFoundElement.
Proof.
  intros Hpreview Hsession Hdata Hroute.
  rewrite getServerSideProps_create.
  unfold create. rewrite Hpreview, Hsession. run. rewrite Hdata. run.
  destruct (ed_layoutData data) as [ld |]; cbn in Hroute; run.
  - rewrite Hroute. run. by eexists.
  - by eexists.
Qed.

(** X18. A normal-mode request whose layout fetch fails with status 401,
    with the dictionary fetched: [getServerSideProps] returns props with
    [unauthorized] set, for which [SitecorePage] renders the unauthorized
    view, together with [notFound: true]. *)
Theorem getServerSideProps_layout_401
    (env : Environment) (context : PropsContext) (this : Factory)
    (session : option Session) (error : JsError) (phrases : DictionaryPhrases) :
  truthy (preview context) = false →
  getSession env context = Returned session →
  fetchLayoutData env
    (match session with
     | Some s => layoutServiceFactory_create (Some s)
     | None => layoutService this
     end)
    (extractPath (params context))
    (default (pkg_config_language env) (ctx_locale context))
    (if isServerSidePropsContext context then req context else None)
    (if isServerSidePropsContext context then res context else None) = Thrown error →
  responseStatus error = Some 401%Z →
  fetchDictionaryData env (default (pkg_config_language env) (ctx_locale context))
    = Returned phrases →
  ∃ result this' evs,
    getServerSideProps env context this = (Returned result, this', evs) ∧
    unauthorized (result_props result) = true ∧
    SitecorePage (result_props result) = UnauthorizedElement ∧
    result_notFound result = Some true.
Proof.
  intros Hnormal Hsession Hfetch Hstatus Hdict.
  rewrite getServerSideProps_create.
  rewrite (create_layout_401 env context this session Hnormal Hsession error Hfetch Hstatus).
  rewrite Hdict. by do 3 eexists.
Qed.

(** ** More runs of the sample site *)

Lemma extractPath_segments_witness :
  ({[ "path" := QArray ["docs"; "intro"] ]} : ParsedUrlQuery) !! "path"
    = Some (QArray ["docs"; "intro"]) ∧
  forallb isSegment ["docs"; "intro"] = true ∧
  extractPath (Some {[ "path" := QArray ["docs"; "intro"] ]}) = "/docs/intro" ∧
  hasDuplicateSlash (extractPath (Some {[ "path" := QArray ["docs"; "intro"] ]})) = false.
Proof.
  do 2 (split; [reflexivity |]).
  exact (extractPath_segments {[ "path" := QArray ["docs"; "intro"] ]}
           ["docs"; "intro"] eq_refl eq_refl).
Defined.

Lemma create_layout_with_route_witness :
  truthy (preview (staticContext ["home"])) = false ∧
  getSession sampleEnvironment (staticContext ["home"]) = Returned None ∧
  fetchLayoutData sampleEnvironment (layoutService sampleFactory)
    "/home" "en" None None = Returned homeLayout ∧
  route (sitecore homeLayout) = Some homeRoute ∧
  fetchDictionaryData sampleEnvironment "en" = Returned sampleDictionary ∧
  fetchStaticComponentProps sampleEnvironment homeLayout (staticContext ["home"])
    = Returned {[ "uid-1" := JStr "ssg" ]} ∧
  create sampleEnvironment (staticContext ["home"]) sampleFactory =
    (Returned (homeProps {[ "uid-1" := JStr "ssg" ]}),
     sampleFactory,
     [EvGetSession (staticContext ["home"]);
      EvFetchLayoutData (layoutServiceFactory_create None) "/home" "en" None None;
      EvFetchDictionaryData "en";
      EvFetchStaticComponentProps homeLayout (staticContext ["home"])]).
Proof.
  do 6 (split; [reflexivity |]).
  exact (create_layout_with_route sampleEnvironment (staticContext ["home"])
           sampleFactory None eq_refl eq_refl homeLayout homeRoute sampleDictionary
           {[ "uid-1" := JStr "ssg" ]} eq_refl eq_refl eq_refl eq_refl).
Defined.

Lemma create_dictionary_error_witness :
  truthy (preview (staticContext ["home"])) = false ∧
  getSession brokenDictionaryEnvironment (staticContext ["home"]) = Returned None ∧
  fetchLayoutData brokenDictionaryEnvironment (layoutService sampleFactory)
    "/home" "en" None None = Returned homeLayout ∧
  fetchDictionaryData brokenDictionaryEnvironment "en" = Thrown networkError ∧
  ∃ evs,
    create brokenDictionaryEnvironment (staticContext ["home"]) sampleFactory
      = (Thrown networkError, sampleFactory, evs) ∧
    last evs = Some (EvFetchDictionaryData "en") ∧
    List.filter isComponentPropsFetch evs = [].
Proof.
  do 4 (split; [reflexivity |]).
  exact (create_dictionary_error brokenDictionaryEnvironment (staticContext ["home"])
           sampleFactory None eq_refl eq_refl networkError I eq_refl).
Defined.

Lemma create_component_props_error_witness :
  create brokenComponentsEnvironment (staticContext ["home"]) sampleFactory =
    (Thrown networkError,
     sampleFactory,
     [EvGetSession (staticContext ["home"]);
      EvFetchLayoutData (layoutServiceFactory_create None) "/home" "en" None None;
      EvFetchDictionaryData "en";
      EvFetchStaticComponentProps homeLayout (staticContext ["home"])]) ∧
  fetchStaticComponentProps brokenComponentsEnvironment homeLayout (staticContext ["home"])
    = Thrown networkError ∧
  Thrown networkError = (Thrown networkError : Outcome SitecorePageProps).
Proof.
  do 2 (split; [reflexivity |]).
  refine (create_component_props_error brokenComponentsEnvironment
            (staticContext ["home"]) sampleFactory sampleFactory _ _
            homeLayout (staticContext ["home"]) networkError eq_refl _).
  right. split; [| reflexivity].
  do 3 apply list_elem_of_further. apply list_elem_of_here.
Defined.

Lemma create_session_first_witness :
  create brokenSessionEnvironment (requestContext ["home"]) sampleFactory =
    (Thrown networkError, sampleFactory, [EvGetSession (requestContext ["home"])]) ∧
  getSession brokenSessionEnvironment (requestContext ["home"]) = Thrown networkError ∧
  ∃ rest, [EvGetSession (requestContext ["home"])]
          = EvGetSession (requestContext ["home"]) :: rest.
Proof.
  do 2 (split; [reflexivity |]).
  exact (proj1 (create_session_first brokenSessionEnvironment (requestContext ["home"])
                  sampleFactory sampleFactory _ _ eq_refl)).
Defined.

Lemma create_modes_exclusive_witness :
  create sampleEnvironment (previewContext (JStr "token")) sampleFactory =
    (Returned previewProps,
     sampleFactory,
     [EvGetSession (previewContext (JStr "token"));
      EvGetEditingData (JStr "token");
      EvFetchStaticComponentProps shadowingLayout (previewContext (JStr "token"))]) ∧
  truthy (preview (previewContext (JStr "token"))) = true ∧
  List.filter isLayoutFetch
    [EvGetSession (previewContext (JStr "token"));
     EvGetEditingData (JStr "token");
     EvFetchStaticComponentProps shadowingLayout (previewContext (JStr "token"))] = [] ∧
  List.filter isDictionaryFetch
    [EvGetSession (previewContext (JStr "token"));
     EvGetEditingData (JStr "token");
     EvFetchStaticComponentProps shadowingLayout (previewContext (JStr "token"))] = [].
Proof.
  do 2 (split; [reflexivity |]).
  destruct (create_modes_exclusive sampleEnvironment (previewContext (JStr "token"))
              sampleFactory sampleFactory _ _ eq_refl) as [Hpreview _].
  destruct (Hpreview eq_refl) as (_ & Hlayout & Hdictionary & _).
  split; [exact Hlayout | exact Hdictionary].
Defined.

Lemma create_calls_at_most_once_witness :
  create sampleEnvironment (requestContext ["home"]) sampleFactory =
    (Returned (homeProps {[ "uid-1" := JStr "ssr" ]}),
     sampleFactory,
     [EvGetSession (requestContext ["home"]);
      EvFetchLayoutData (layoutServiceFactory_create None) "/home" "en"
        (req (requestContext ["home"])) (res (requestContext ["home"]));
      EvFetchDictionaryData "en";
      EvFetchServerSideComponentProps homeLayout (requestContext ["home"])]) ∧
  List.length
    (List.filter isSessionLookup
       [EvGetSession (requestContext ["home"]);
        EvFetchLayoutData (layoutServiceFactory_create None) "/home" "en"
          (req (requestContext ["home"])) (res (requestContext ["home"]));
        EvFetchDictionaryData "en";
        EvFetchServerSideComponentProps homeLayout (requestContext ["home"])]) = 1%nat.
Proof.
  split; [reflexivity |].
  exact (proj1 (create_calls_at_most_once sampleEnvironment (requestContext ["home"])
                  sampleFactory sampleFactory _ _ eq_refl)).
Defined.

Lemma create_fetch_arguments_witness :
  create sampleEnvironment (requestContext ["home"]) sampleFactory =
    (Returned (homeProps {[ "uid-1" := JStr "ssr" ]}),
     sampleFactory,
     [EvGetSession (requestContext ["home"]);
      EvFetchLayoutData (layoutServiceFactory_create None) "/home" "en"
        (req (requestContext ["home"])) (res (requestContext ["home"]));
      EvFetchDictionaryData "en";
      EvFetchServerSideComponentProps homeLayout (requestContext ["home"])]) ∧
  truthy (preview (requestContext ["home"])) = false ∧
  locale (homeProps {[ "uid-1" := JStr "ssr" ]}) = "en".
Proof.
  do 2 (split; [reflexivity |]).
  destruct (create_fetch_arguments sampleEnvironment (requestContext ["home"])
              sampleFactory sampleFactory _ _ eq_refl) as (_ & _ & Hlocale).
  exact (Hlocale _ eq_refl eq_refl).
Defined.

Lemma create_factory_effect_witness :
  create memberEnvironment (requestContext ["home"]) sampleFactory =
    (Returned (homeProps {[ "uid-1" := JStr "ssr" ]}),
     {| layoutService := layoutServiceFactory_create (Some memberSession) |},
     [EvGetSession (requestContext ["home"]);
      EvFetchLayoutData (layoutServiceFactory_create (Some memberSession)) "/home" "en"
        (req (requestContext ["home"])) (res (requestContext ["home"]));
      EvFetchDictionaryData "en";
      EvFetchServerSideComponentProps homeLayout (requestContext ["home"])]) ∧
  {| layoutService := layoutServiceFactory_create (Some memberSession) |} =
    match getSession memberEnvironment (requestContext ["home"]) with
    | Returned (Some s) =>
        if truthy (preview (requestContext ["home"])) then sampleFactory
        else {| layoutService := layoutServiceFactory_create (Some s) |}
    | _ => sampleFactory
    end.
Proof.
  split; [reflexivity |].
  exact (create_factory_effect memberEnvironment (requestContext ["home"])
           sampleFactory _ _ _ eq_refl).
Defined.

Lemma create_session_service_persists_witness :
  truthy (preview (requestContext ["home"])) = false ∧
  getSession memberEnvironment (requestContext ["home"]) = Returned (Some memberSession) ∧
  create memberEnvironment (requestContext ["home"]) sampleFactory =
    (Returned (homeProps {[ "uid-1" := JStr "ssr" ]}),
     {| layoutService := layoutServiceFactory_create (Some memberSession) |},
     [EvGetSession (requestContext ["home"]);
      EvFetchLayoutData (layoutServiceFactory_create (Some memberSession)) "/home" "en"
        (req (requestContext ["home"])) (res (requestContext ["home"]));
      EvFetchDictionaryData "en";
      EvFetchServerSideComponentProps homeLayout (requestContext ["home"])]) ∧
  truthy (preview (staticContext ["home"])) = false ∧
  getSession memberEnvironment (staticContext ["home"]) = Returned None ∧
  create memberEnvironment (staticContext ["home"])
    {| layoutService := layoutServiceFactory_create (Some memberSession) |} =
    (Returned (homeProps {[ "uid-1" := JStr "ssg" ]}),
     {| layoutService := layoutServiceFactory_create (Some memberSession) |},
     [EvGetSession (staticContext ["home"]);
      EvFetchLayoutData (layoutServiceFactory_create (Some memberSession)) "/home" "en"
        None None;
      EvFetchDictionaryData "en";
      EvFetchStaticComponentProps homeLayout (staticContext ["home"])]) ∧
  ∃ rest,
    [EvGetSession (staticContext ["home"]);
     EvFetchLayoutData (layoutServiceFactory_create (Some memberSession)) "/home" "en"
       None None;
     EvFetchDictionaryData "en";
     EvFetchStaticComponentProps homeLayout (staticContext ["home"])]
    = EvGetSession (staticContext ["home"])
        :: EvFetchLayoutData (layoutServiceFactory_create (Some memberSession))
             "/home" "en" None None
        :: rest.
Proof.
  do 6 (split; [reflexivity |]).
  exact (proj2 (create_session_service_persists memberEnvironment
                  (requestContext ["home"]) (staticContext ["home"])
                  sampleFactory _ _ memberSession _ _ _ _
                  eq_refl eq_refl eq_refl eq_refl eq_refl eq_refl)).
Defined.

Lemma create_flags_witness :
  create sampleEnvironment (staticContext ["missing"]) sampleFactory =
    (Returned (flaggedProps true false),
     sampleFactory,
     [EvGetSession (staticContext ["missing"]);
      EvFetchLayoutData (layoutServiceFactory_create None) "/missing" "en" None None;
      EvConsoleLog (httpError 404);
      EvFetchDictionaryData "en"]) ∧
  truthy (preview (staticContext ["missing"])) = false ∧
  sitecoreContext (flaggedProps true false) = None ∧
  notFound (flaggedProps true false) = true.
Proof.
  do 3 (split; [reflexivity |]).
  destruct (create_flags sampleEnvironment (staticContext ["missing"])
              sampleFactory sampleFactory _ _ eq_refl) as (_ & Hnormal & _).
  exact (proj2 (Hnormal eq_refl) eq_refl).
Defined.

Lemma create_logs_layout_errors_witness :
  create sampleEnvironment (staticContext ["broken"]) sampleFactory =
    (Thrown networkError,
     sampleFactory,
     [EvGetSession (staticContext ["broken"]);
      EvFetchLayoutData (layoutServiceFactory_create None) "/broken" "en" None None;
      EvConsoleLog networkError]) ∧
  (EvConsoleLog networkError
     ∈ [EvGetSession (staticContext ["broken"]);
        EvFetchLayoutData (layoutServiceFactory_create None) "/broken" "en" None None;
        EvConsoleLog networkError] ↔
   ∃ svc p l rq rs,
     EvFetchLayoutData svc p l rq rs
       ∈ [EvGetSession (staticContext ["broken"]);
          EvFetchLayoutData (layoutServiceFactory_create None) "/broken" "en" None None;
          EvConsoleLog networkError] ∧
     fetchLayoutData sampleEnvironment svc p l rq rs = Thrown networkError).
Proof.
  split; [reflexivity |].
  exact (create_logs_layout_errors sampleEnvironment (staticContext ["broken"])
           sampleFactory sampleFactory _ _ networkError eq_refl).
Defined.

Lemma getServerSideProps_notFound_witness :
  getServerSideProps sampleEnvironment (requestContext ["missing"]) sampleFactory =
    (Returned {| result_props := flaggedProps true false; result_notFound := Some true |},
     sampleFactory,
     [EvGetSession (requestContext ["missing"]);
      EvFetchLayoutData (layoutServiceFactory_create None) "/missing" "en"
        (req (requestContext ["missing"])) (res (requestContext ["missing"]));
      EvConsoleLog (httpError 404);
      EvFetchDictionaryData "en"]) ∧
  create sampleEnvironment (requestContext ["missing"]) sampleFactory =
    (Returned (flaggedProps true false),
     sampleFactory,
     [EvGetSession (requestContext ["missing"]);
      EvFetchLayoutData (layoutServiceFactory_create None) "/missing" "en"
        (req (requestContext ["missing"])) (res (requestContext ["missing"]));
      EvConsoleLog (httpError 404);
      EvFetchDictionaryData "en"]).
Proof.
  split; [reflexivity |].
  exact (proj1 (getServerSideProps_notFound sampleEnvironment
                  (requestContext ["missing"]) sampleFactory sampleFactory _ _ eq_refl)).
Defined.

Lemma SitecorePage_normal_result_witness :
  truthy (preview (requestContext ["home"])) = false ∧
  (∀ ld, resolvedLayout sampleEnvironment (requestContext ["home"]) sampleFactory = Some ld →
     layoutContext (sitecore ld) !! "route" = None) ∧
  create sampleEnvironment (requestContext ["home"]) sampleFactory =
    (Returned (homeProps {[ "uid-1" := JStr "ssr" ]}),
     sampleFactory,
     [EvGetSession (requestContext ["home"]);
      EvFetchLayoutData (layoutServiceFactory_create None) "/home" "en"
        (req (requestContext ["home"])) (res (requestContext ["home"]));
      EvFetchDictionaryData "en";
      EvFetchServerSideComponentProps homeLayout (requestContext ["home"])]) ∧
  SitecorePage (homeProps {[ "uid-1" := JStr "ssr" ]}) =
    LayoutElement {[ "uid-1" := JStr "ssr" ]}
      (sitecoreContext (homeProps {[ "uid-1" := JStr "ssr" ]})).
Proof.
  assert (Hbag : ∀ ld,
            resolvedLayout sampleEnvironment (requestContext ["home"]) sampleFactory
              = Some ld →
            layoutContext (sitecore ld) !! "route" = None).
  { intros ld [= <-]. reflexivity. }
  split; [reflexivity |]. split; [exact Hbag |]. split; [reflexivity |].
  exact (SitecorePage_normal_result sampleEnvironment (requestContext ["home"])
           sampleFactory sampleFactory _ _ eq_refl Hbag eq_refl).
Defined.

Lemma preview_without_route_witness :
  truthy (preview (previewContext (JStr "token"))) = true ∧
  getSession draftEnvironment (previewContext (JStr "token")) = Returned None ∧
  getEditingData draftEnvironment (previewData (previewContext (JStr "token")))
    = Returned (Some draftEditingData) ∧
  routeOf (ed_layoutData draftEditingData) = None ∧
  ∃ r,
    create draftEnvironment (previewContext (JStr "token")) sampleFactory =
      (Returned r, sampleFactory,
       [EvGetSession (previewContext (JStr "token")); EvGetEditingData (JStr "token")]) ∧
    sitecoreContext r = None ∧
    notFound r = false ∧
    getServerSideProps draftEnvironment (previewContext (JStr "token")) sampleFactory =
      (Returned {| result_props := r; result_notFound := None |},
       sampleFactory,
       [EvGetSession (previewContext (JStr "token")); EvGetEditingData (JStr "token")]) ∧
    SitecorePage r = NotFoundElement.
Proof.
  do 4 (split; [reflexivity |]).
  exact (preview_without_route draftEnvironment (previewContext (JStr "token"))
           sampleFactory None draftEditingData eq_refl eq_refl eq_refl eq_refl).
Defined.

Lemma getServerSideProps_layout_401_witness :
  truthy (preview (requestContext ["private"])) = false ∧
  getSession sampleEnvironment (requestContext ["private"]) = Returned None ∧
  fetchLayoutData sampleEnvironment (layoutService sampleFactory) "/private" "en"
    (req (requestContext ["private"])) (res (requestContext ["private"]))
    = Thrown (httpError 401) ∧
  responseStatus (httpError 401) = Some 401%Z ∧
  fetchDictionaryData sampleEnvironment "en" = Returned sampleDictionary ∧
  ∃ result this' evs,
    getServerSideProps sampleEnvironment (requestContext ["private"]) sampleFactory
      = (Returned result, this', evs) ∧
    unauthorized (result_props result) = true ∧
    SitecorePage (result_props result) = UnauthorizedElement ∧
    result_notFound result = Some true.
Proof.
  do 5 (split; [reflexivity |]).
  exact (getServerSideProps_layout_401 sampleEnvironment (requestContext ["private"])
           sampleFactory None (httpError 401) sampleDictionary
           eq_refl eq_refl eq_refl eq_refl eq_refl).
Defined.

Lemma create_on_new_factory_witness :
  truthy (preview (requestContext ["home"])) = false ∧
  getSession memberEnvironment (requestContext ["home"]) = Returned (Some memberSession) ∧
  create memberEnvironment (requestContext ["home"]) SitecorePagePropsFactory_new =
    (Returned (homeProps {[ "uid-1" := JStr "ssr" ]}),
     {| layoutService := layoutServiceFactory_create (Some memberSession) |},
     [EvGetSession (requestContext ["home"]);
      EvFetchLayoutData (layoutServiceFactory_create (Some memberSession)) "/home" "en"
        (req (requestContext ["home"])) (res (requestContext ["home"]));
      EvFetchDictionaryData "en";
      EvFetchServerSideComponentProps homeLayout (requestContext ["home"])]) ∧
  {| layoutService := layoutServiceFactory_create (Some memberSession) |}
    = {| layoutService := layoutServiceFactory_create (Some memberSession) |}.
Proof.
  do 3 (split; [reflexivity |]).
  exact (proj1 (create_on_new_factory memberEnvironment (requestContext ["home"])
                  (Some memberSession) _ _ _ eq_refl eq_refl eq_refl)).
Defined.
